(** * ControlledWidget: reset-on-trigger over a shared session mapping

    A shallow embedding of [st_control/controllers.py].

    The Python class keeps all of its persistent state in Streamlit's
    [st.session_state]: the controlled value under the widget's key, and two
    private dictionaries, [__default_values__] and [__controlled_widgets__],
    created lazily on first use.  The embedding threads that mapping
    explicitly through every method and keeps Python exceptions as results.

    Scope of the model.
    - Session values are [None], booleans, integers and strings, compared
      with Python's [==] (so [True == 1]).  Floats, and with them a value
      that differs from itself, are not represented.
    - The two private dictionaries are record fields of their own, next to
      the mapping of user keys.  A widget whose key or trigger field is
      literally one of the two reserved names would read or overwrite such a
      dictionary through the user-key interface; statements that write the
      key or capture the trigger fields are therefore made for user keys
      (see [user_widget]). *)

From Stdlib Require Import ZArith.
From stdpp Require Import base option list strings gmap.

Local Open Scope Z_scope.

(** ** Session values *)

Inductive value : Type :=
  | VNone
  | VBool (b : bool)
  | VInt (n : Z)
  | VStr (s : string).

#[global] Instance value_eq_dec : EqDecision value.
Proof. solve_decision. Defined.

(** Python's numeric tower, as far as it is modelled: [bool] is a subclass
    of [int]. *)
Definition as_int (v : value) : option Z :=
  match v with
  | VBool true => Some 1
  | VBool false => Some 0
  | VInt n => Some n
  | VNone | VStr _ => None
  end.

(** [a == b] *)
Definition py_eq (a b : value) : bool :=
  match a, b with
  | VNone, VNone => true
  | VStr s, VStr t => bool_decide (s = t)
  | _, _ =>
      match as_int a, as_int b with
      | Some m, Some n => bool_decide (m = n)
      | _, _ => false
      end
  end.

(** [a != b] *)
Definition py_ne (a b : value) : bool := negb (py_eq a b).

(** ** The session mapping *)

(** What [__controlled_widgets__[key]['tracked_trigger_fields']] holds:
    trigger-field key to the value captured for it. *)
Abbreviation snapshot := (gmap string value).

Record session_state : Type := {
  (** user keys *)
  values : gmap string value;
  (** [st.session_state.__default_values__], when present *)
  __default_values__ : option (gmap string value);
  (** [st.session_state.__controlled_widgets__], when present; each entry is
      the one-field dictionary [{'tracked_trigger_fields': ...}] *)
  __controlled_widgets__ : option (gmap string snapshot)
}.

Definition set_values (f : gmap string value → gmap string value)
    (s : session_state) : session_state :=
  {| values := f (values s);
     __default_values__ := __default_values__ s;
     __controlled_widgets__ := __controlled_widgets__ s |}.

Definition set_default_values (d : option (gmap string value))
    (s : session_state) : session_state :=
  {| values := values s;
     __default_values__ := d;
     __controlled_widgets__ := __controlled_widgets__ s |}.

Definition set_controlled_widgets (r : option (gmap string snapshot))
    (s : session_state) : session_state :=
  {| values := values s;
     __default_values__ := __default_values__ s;
     __controlled_widgets__ := r |}.

(** [st.session_state.get(k)]: [None] when [k] is absent. *)
Definition session_get (s : session_state) (k : string) : value :=
  default VNone (values s !! k).

(** The two names the class reserves in the session mapping. *)
Definition reserved (k : string) : bool :=
  bool_decide (k = "__default_values__"%string)
  || bool_decide (k = "__controlled_widgets__"%string).

Definition user_key (k : string) : Prop := reserved k = false.

(** ** Exceptions and the method monad *)

Inductive exn : Type :=
  | KeyError (k : string)
  | AttributeError (name : string)
  | Exception (msg : string).

Inductive outcome (A : Type) : Type :=
  | Ret (a : A)
  | Raise (e : exn).
Arguments Ret {A} a.
Arguments Raise {A} e.

(** A computation reads and writes the session mapping and either returns
    or raises; what it wrote before raising stays written. *)
Definition M (A : Type) : Type := session_state → outcome A * session_state.

Definition ret {A} (a : A) : M A := λ s, (Ret a, s).

Definition raise {A} (e : exn) : M A := λ s, (Raise e, s).

Definition bind {A B} (c : M A) (k : A → M B) : M B := λ s,
  match c s with
  | (Ret a, s') => k a s'
  | (Raise e, s') => (Raise e, s')
  end.

Notation "'let!' x ':=' c 'in' k" := (bind c (λ x, k))
  (at level 10, x name, c at level 100, k at level 200).
Notation "'exec!' c 'in' k" := (bind c (λ _, k))
  (at level 10, c at level 100, k at level 200).

(** [if b: c] with no [else] *)
Definition when (b : bool) (c : M unit) : M unit := if b then c else ret tt.

(** *** The interface of the session mapping *)

(** [k in st.session_state] *)
Definition ss_contains (k : string) : M bool := λ s,
  (Ret (bool_decide (is_Some (values s !! k))), s).

(** [st.session_state.get(k)] *)
Definition ss_get (k : string) : M value := λ s, (Ret (session_get s k), s).

(** [st.session_state[k] = v] *)
Definition ss_setitem (k : string) (v : value) : M unit := λ s,
  (Ret tt, set_values <[k := v]> s).

(** ['__default_values__' in st.session_state] *)
Definition has_default_values : M bool := λ s,
  (Ret (bool_decide (is_Some (__default_values__ s))), s).

(** [st.session_state.__default_values__ = {}] *)
Definition new_default_values : M unit := λ s,
  (Ret tt, set_default_values (Some ∅) s).

(** [st.session_state.__default_values__[k] = v]; reading an attribute the
    mapping does not have raises [AttributeError]. *)
Definition default_values_setitem (k : string) (v : value) : M unit := λ s,
  match __default_values__ s with
  | Some d => (Ret tt, set_default_values (Some (<[k := v]> d)) s)
  | None => (Raise (AttributeError "__default_values__"), s)
  end.

(** ['__controlled_widgets__' in st.session_state] *)
Definition has_controlled_widgets : M bool := λ s,
  (Ret (bool_decide (is_Some (__controlled_widgets__ s))), s).

(** [st.session_state.__controlled_widgets__ = {}] *)
Definition new_controlled_widgets : M unit := λ s,
  (Ret tt, set_controlled_widgets (Some ∅) s).

(** [st.session_state.__controlled_widgets__] *)
Definition controlled_widgets : M (gmap string snapshot) := λ s,
  match __controlled_widgets__ s with
  | Some r => (Ret r, s)
  | None => (Raise (AttributeError "__controlled_widgets__"), s)
  end.

(** [st.session_state.__controlled_widgets__[k] =
      {'tracked_trigger_fields': snap}] *)
Definition controlled_widgets_setitem (k : string) (snap : snapshot)
    : M unit := λ s,
  match __controlled_widgets__ s with
  | Some r => (Ret tt, set_controlled_widgets (Some (<[k := snap]> r)) s)
  | None => (Raise (AttributeError "__controlled_widgets__"), s)
  end.

(** ** The class *)

Record ControlledWidget : Type := {
  key : string;
  default_value : value;
  trigger_fields : option (list string);
  trigger_func : option (M bool)
}.

(** [self.trigger_fields or []] *)
Definition fields_or_empty (self : ControlledWidget) : list string :=
  match trigger_fields self with
  | Some (f :: fs) => f :: fs
  | Some [] | None => []
  end.

(** [{field: st.session_state.get(field) for field in fields}]: entries are
    written left to right, a repeated field overwrites its entry. *)
Definition tracked_trigger_fields (fields : list string) (s : session_state)
    : snapshot :=
  foldl (λ acc field, <[field := session_get s field]> acc) ∅ fields.

(** The dictionary on the right-hand side is built before the attribute on
    the left is looked up. *)
Definition __update_trigger_fields_session_state (self : ControlledWidget)
    : M unit := λ s,
  let snap := tracked_trigger_fields (fields_or_empty self) s in
  controlled_widgets_setitem (key self) snap s.

Definition __init__ (key : string) (default_value : value)
    (trigger_fields : option (list string)) (trigger_func : option (M bool))
    : M ControlledWidget :=
  let self := {| key := key; default_value := default_value;
                 trigger_fields := trigger_fields;
                 trigger_func := trigger_func |} in
  let! present := has_default_values in
  exec! when (negb present) new_default_values in
  let! present := ss_contains key in
  exec! when (negb present) (ss_setitem key default_value) in
  exec! default_values_setitem key default_value in
  let! present := has_controlled_widgets in
  exec! when (negb present) new_controlled_widgets in
  let! registry := controlled_widgets in
  exec! when (negb (bool_decide (is_Some (registry !! key))))
             (__update_trigger_fields_session_state self) in
  ret self.

(** The two setters assign to the instance first; the instance they leave
    behind is returned next to the computation on the session. *)
Definition set_trigger_fields (self : ControlledWidget)
    (fields : list string) : ControlledWidget * M unit :=
  let self' := {| key := key self; default_value := default_value self;
                  trigger_fields := Some fields;
                  trigger_func := trigger_func self |} in
  (self', __update_trigger_fields_session_state self').

Definition set_trigger_func (self : ControlledWidget) (func : M bool)
    : ControlledWidget * M unit :=
  ({| key := key self; default_value := default_value self;
      trigger_fields := trigger_fields self;
      trigger_func := Some func |}, ret tt).

(** Property [trigger_field_values]: a key the registry lacks is a
    [KeyError]. *)
Definition trigger_field_values (self : ControlledWidget) : M snapshot :=
  let! registry := controlled_widgets in
  match registry !! key self with
  | Some snap => ret snap
  | None => raise (KeyError (key self))
  end.

(** Property [value] *)
Definition value_ (self : ControlledWidget) : M value := ss_get (key self).

Definition reset (self : ControlledWidget) : M unit :=
  exec! ss_setitem (key self) (default_value self) in
  __update_trigger_fields_session_state self.

(** The [for] loop of [has_triggered] over the items of the snapshot, with
    its early [return True]. *)
Fixpoint any_changed (s : session_state) (items : list (string * value))
    : bool :=
  match items with
  | [] => false
  | (trigger_field, v) :: rest =>
      if py_ne (session_get s trigger_field) v then true
      else any_changed s rest
  end.

Definition has_triggered (self : ControlledWidget) : M bool :=
  match trigger_func self with
  | Some func => func
  | None =>
      match trigger_fields self with
      | Some _ =>
          let! snap := trigger_field_values self in
          λ s, (Ret (any_changed s (map_to_list snap)), s)
      | None => ret true
      end
  end.

Definition __enter__ (self : ControlledWidget) : M ControlledWidget :=
  let! triggered := has_triggered self in
  exec! when triggered (ss_setitem (key self) (default_value self)) in
  ret self.

Definition __exit__ (self : ControlledWidget) : M unit :=
  __update_trigger_fields_session_state self.

(** [with self as ctrl: body(ctrl)].  [__exit__] is not called when
    [__enter__] raises; otherwise it is called however the body ends.  It
    returns [None], so an exception of the body is raised again after it. *)
Definition with_ {A} (self : ControlledWidget)
    (body : ControlledWidget → M A) : M A := λ s,
  match __enter__ self s with
  | (Raise e, s1) => (Raise e, s1)
  | (Ret ctrl, s1) =>
      let '(r, s2) := body ctrl s1 in
      match __exit__ self s2 with
      | (Ret _, s3) => (r, s3)
      | (Raise e, s3) => (Raise e, s3)
      end
  end.


(** ** Vocabulary of the statements *)

(** The snapshot the registry holds for [k], if any. *)
Definition tracked (s : session_state) (k : string) : option snapshot :=
  r ← __controlled_widgets__ s; r !! k.

(** Neither the key nor a trigger field of the widget is a reserved name. *)
Definition user_widget (self : ControlledWidget) : Prop :=
  user_key (key self) ∧ Forall user_key (fields_or_empty self).

(** The operations of the class on one instance.  [Construct] builds the
    instance again for the same key, as every page execution does. *)
Inductive method : Type :=
  | Construct (default_value : value) (trigger_fields : option (list string))
              (trigger_func : option (M bool))
  | SetTriggerFields (fields : list string)
  | SetTriggerFunc (func : M bool)
  | TriggerFieldValues
  | Value
  | Reset
  | HasTriggered
  | Enter
  | Exit.

(** Calling a method: the instance and the session it leaves behind.  The
    returned value or exception is dropped. *)
Definition invoke (m : method) (self : ControlledWidget) (s : session_state)
    : ControlledWidget * session_state :=
  match m with
  | Construct d fields func =>
      match __init__ (key self) d fields func s with
      | (Ret self', s') => (self', s')
      | (Raise _, s') => (self, s')
      end
  | SetTriggerFields fields =>
      let '(self', c) := set_trigger_fields self fields in (self', (c s).2)
  | SetTriggerFunc func =>
      let '(self', c) := set_trigger_func self func in (self', (c s).2)
  | TriggerFieldValues => (self, (trigger_field_values self s).2)
  | Value => (self, (value_ self s).2)
  | Reset => (self, (reset self s).2)
  | HasTriggered => (self, (has_triggered self s).2)
  | Enter => (self, (__enter__ self s).2)
  | Exit => (self, (__exit__ self s).2)
  end.

Fixpoint invoke_all (ms : list method) (self : ControlledWidget)
    (s : session_state) : ControlledWidget * session_state :=
  match ms with
  | [] => (self, s)
  | m :: rest => let '(self', s') := invoke m self s in invoke_all rest self' s'
  end.

(** A user callback that never removes key [k] from the session. *)
Definition keeps_key (k : string) (func : M bool) : Prop :=
  ∀ s, is_Some (values s !! k) → is_Some (values (func s).2 !! k).

(** The callbacks a method installs keep [k]. *)
Definition installs_keeping (k : string) (m : method) : Prop :=
  match m with
  | Construct _ _ (Some func) | SetTriggerFunc func => keeps_key k func
  | _ => True
  end.

(** What a snapshot has to hold to be the capture of the trigger fields
    [fields] in session [s]: every field of the list with the value the
    session has for it, [None] for a field the session lacks, and nothing
    else; nothing at all when there is no list. *)
Definition snapshot_records (snap : snapshot) (fields : option (list string))
    (s : session_state) : Prop :=
  (∀ fs f, fields = Some fs → f ∈ fs →
     snap !! f = Some (default VNone (values s !! f)))
  ∧ (∀ f, (∀ fs, fields = Some fs → f ∉ fs) → snap !! f = None).

(** The calls that do not write the controlled value.  [__enter__] is one
    of them only when [has_triggered] does not return [True]. *)
Definition leaves_value_alone (m : method) (self : ControlledWidget)
    (s : session_state) : Prop :=
  match m with
  | Reset => False
  | Construct _ _ _ => is_Some (values s !! key self)
  | HasTriggered => trigger_func self = None
  | Enter => trigger_func self = None ∧ (has_triggered self s).1 ≠ Ret true
  | SetTriggerFields _ | SetTriggerFunc _ | TriggerFieldValues | Value
  | Exit => True
  end.

(** *** The sentences of the specification that the code does not follow,
    written out as they stand *)

(** "compares using equality, absent-vs-present counts as a difference":
    the current entry of a field against its snapshot entry. *)
Definition differs_as_specified (current captured : option value) : bool :=
  match current, captured with
  | Some c, Some v => py_ne c v
  | None, None => false
  | Some _, None | None, Some _ => true
  end.

(** "true if ANY field's current session value differs from its
    last-captured snapshot value" *)
Definition has_triggered_as_specified (self : ControlledWidget)
    (s : session_state) (snap : snapshot) : bool :=
  existsb (λ field, differs_as_specified (values s !! field) (snap !! field))
          (fields_or_empty self).

(** "This is the only mutator of the controlled value": every call but
    [reset], construction being taken with the key present and
    [has_triggered] with [trigger_func] unset. *)
Definition other_than_reset_as_specified (m : method)
    (self : ControlledWidget) (s : session_state) : Prop :=
  match m with
  | Reset => False
  | Construct _ _ _ => is_Some (values s !! key self)
  | HasTriggered => trigger_func self = None
  | SetTriggerFields _ | SetTriggerFunc _ | TriggerFieldValues | Value
  | Enter | Exit => True
  end.

(** ** Running example: the page of [streamlit_app.py] *)

Definition fresh_session : session_state :=
  {| values := ∅; __default_values__ := None;
     __controlled_widgets__ := None |}.

Definition my_text_input : ControlledWidget :=
  {| key := "my_text_input"; default_value := VStr "initial value";
     trigger_fields := Some ["field1"; "field2"]%string;
     trigger_func := None |}.

(** [lambda: st.session_state['field1'] == 'reset'] *)
Definition field1_is_reset : M bool := λ s,
  match values s !! "field1"%string with
  | Some v => (Ret (py_eq v (VStr "reset")), s)
  | None => (Raise (KeyError "field1"), s)
  end.

(** The first execution of the page, up to the construction of
    [controlled_text_input]. *)
Definition first_execution : session_state :=
  let s1 := (__init__ "field1" (VStr "") None None fresh_session).2 in
  let s2 := (__init__ "field2" (VStr "") None None s1).2 in
  (__init__ "my_text_input" (VStr "initial value")
            (Some ["field1"; "field2"]%string) None s2).2.

(** [another_controlled_widget] of the page *)
Definition another_widget : ControlledWidget :=
  {| key := "another_widget"; default_value := VStr "another initial value";
     trigger_fields := None; trigger_func := Some field1_is_reset |}.

(** [field1 = ControlledWidget(key='field1', default_value='')] *)
Definition field1 : ControlledWidget :=
  {| key := "field1"; default_value := VStr "";
     trigger_fields := None; trigger_func := None |}.

(** A widget reset by a select box whose value may be [None]. *)
Definition details : ControlledWidget :=
  {| key := "details"; default_value := VStr "";
     trigger_fields := Some ["choice"]%string; trigger_func := None |}.

(** [details] is constructed while [choice] holds [None] ... *)
Definition choice_is_none : session_state :=
  (__init__ "details" (VStr "") (Some ["choice"]%string) None
     {| values := {[ "choice"%string := VNone ]};
        __default_values__ := None;
        __controlled_widgets__ := None |}).2.

(** ... and then [del st.session_state['choice']]. *)
Definition choice_deleted : session_state :=
  set_values (delete "choice"%string) choice_is_none.

(** The page after the construction of [field1] alone: the registry exists
    and has no entry for ["my_text_input"]. *)
Definition only_field1 : session_state :=
  (__init__ "field1" (VStr "") None None fresh_session).2.

(** [my_text_input] with another list of trigger fields. *)
Definition my_text_input_on (fields : list string) : ControlledWidget :=
  {| key := "my_text_input"; default_value := VStr "initial value";
     trigger_fields := Some fields; trigger_func := None |}.

(** After the first execution the user edits [field1], and the entry of
    ["my_text_input"] leaves the session (the host framework drops the state
    of a widget that is not rendered; [del] does the same). *)
Definition value_dropped : session_state :=
  set_values (λ m, <["field1"%string := VStr "hello"]>
                     (delete "my_text_input"%string m))
             first_execution.

(** The user edits [field1] and types into the controlled input. *)
Definition edited : session_state :=
  set_values (λ m, <["field1"%string := VStr "hello"]>
                     (<["my_text_input"%string := VStr "typed"]> m))
             first_execution.

(** A body that writes the controlled value, as the rendered widget does,
    and then fails. *)
Definition failing_body (ctrl : ControlledWidget) : M unit :=
  exec! ss_setitem (key ctrl) (VStr "typed") in
  raise (Exception "render failed").

(** *** Vocabulary of the further properties *)

(** The default recorded for [k] in [__default_values__], if any. *)
Definition default_of (s : session_state) (k : string) : option value :=
  d ← __default_values__ s; d !! k.

(** A callback that only reads the session. *)
Definition quiet (func : M bool) : Prop := ∀ s, (func s).2 = s.



(** The last lines of [streamlit_app.py].  The arguments of
    [st.text_input] are evaluated before the call: [w.value] is read, and
    [w.widget_key] is an attribute the class does not define. *)
Definition another_widget_body (w : ControlledWidget) : M value :=
  exec! value_ w in
  raise (AttributeError "widget_key").

Definition another_widget_block : M value :=
  let! w := __init__ "another_widget" (VStr "another initial value") None
                     (Some field1_is_reset) in
  with_ w another_widget_body.




(** A session in which only [field1] has been typed into. *)
Definition field1_typed : session_state :=
  {| values := {[ "field1"%string := VStr "hello" ]};
     __default_values__ := None; __controlled_widgets__ := None |}.

(** Closes [is_Some o] for a closed [o] by evaluating it. *)
Ltac present_by_computation :=
  apply is_Some_alt; vm_compute; exact I.

(** ** Basic facts *)

Example first_execution_value :
  values first_execution !! "my_text_input"%string
  = Some (VStr "initial value").
Proof. vm_compute. reflexivity. Qed.

Example first_execution_snapshot :
  tracked first_execution "my_text_input"
  = Some {[ "field1"%string := VStr ""; "field2"%string := VStr "" ]}.
Proof. vm_compute. reflexivity. Qed.

Example first_execution_not_triggered :
  has_triggered my_text_input first_execution = (Ret false, first_execution).
Proof. vm_compute. reflexivity. Qed.

(** The user edits [field1] to ['hello']: the next execution sees the
    trigger, and entering the scope puts the default back. *)
Example edit_triggers :
  let s := set_values <["field1"%string := VStr "hello"]> first_execution in
  (has_triggered my_text_input s).1 = Ret true
  ∧ values (__enter__ my_text_input
              (set_values <["my_text_input"%string := VStr "typed"]> s)).2
      !! "my_text_input"%string = Some (VStr "initial value").
Proof. vm_compute. split; reflexivity. Qed.

Example py_eq_bool_int : py_eq (VBool true) (VInt 1) = true.
Proof. reflexivity. Qed.

(** Without the registry the failure is the mapping's own: the attribute
    [__controlled_widgets__] does not exist. *)
Example trigger_field_values_without_registry :
  trigger_field_values my_text_input fresh_session
  = (Raise (AttributeError "__controlled_widgets__"), fresh_session).
Proof. reflexivity. Qed.

(** *** Python equality *)



(** *** Capturing and comparing snapshots *)

Lemma capture_from_lookup s fields (acc : snapshot) f :
  foldl (λ acc field, <[field := session_get s field]> acc) acc fields !! f
  = if decide (f ∈ fields) then Some (session_get s f) else acc !! f.
Proof.
  revert acc. induction fields as [|g fields IH]; intros acc; cbn [foldl].
  - case_decide as Hin; [by apply elem_of_nil in Hin | done].
  - rewrite IH.
    destruct (decide (f ∈ fields)) as [Hin|Hnin].
    + rewrite decide_True; [done | by apply elem_of_cons; right].
    + destruct (decide (f = g)) as [->|Hne].
      * rewrite decide_True by (apply elem_of_cons; by left).
        by rewrite lookup_insert_eq.
      * rewrite decide_False by (by intros [?|?]%elem_of_cons).
        by rewrite lookup_insert_ne.
Qed.

Lemma tracked_trigger_fields_lookup fields s f :
  tracked_trigger_fields fields s !! f
  = if decide (f ∈ fields) then Some (session_get s f) else None.
Proof.
  unfold tracked_trigger_fields. rewrite capture_from_lookup.
  by rewrite lookup_empty.
Qed.


Lemma any_changed_true s items :
  any_changed s items = true
  ↔ ∃ f v, (f, v) ∈ items ∧ py_ne (session_get s f) v = true.
Proof.
  induction items as [|[g w] items IH]; simpl.
  - split; [done | intros (f & v & Hin & _); by apply elem_of_nil in Hin].
  - destruct (py_ne (session_get s g) w) eqn:Hg.
    + split; [intros _ | done].
      exists g, w. split; [apply elem_of_cons; by left | done].
    + rewrite IH. split.
      * intros (f & v & Hin & Hne).
        exists f, v. split; [apply elem_of_cons; by right | done].
      * intros (f & v & Hin & Hne). exists f, v. split; [|done].
        apply elem_of_cons in Hin as [Heq|Hin]; [|done].
        injection Heq as -> ->. congruence.
Qed.

Lemma any_changed_snapshot s (snap : snapshot) :
  any_changed s (map_to_list snap) = true
  ↔ ∃ f v, snap !! f = Some v ∧ py_ne (session_get s f) v = true.
Proof.
  rewrite any_changed_true. split; intros (f & v & H & Hne); exists f, v.
  - split; [by apply elem_of_map_to_list | done].
  - split; [by apply elem_of_map_to_list | done].
Qed.

(** *** What each method does to the session *)

Lemma update_run self s r :
  __controlled_widgets__ s = Some r →
  __update_trigger_fields_session_state self s
  = (Ret tt,
     set_controlled_widgets
       (Some (<[key self := tracked_trigger_fields (fields_or_empty self) s]> r))
       s).
Proof.
  intros Hr. unfold __update_trigger_fields_session_state,
    controlled_widgets_setitem. by rewrite Hr.
Qed.

Lemma update_values self s :
  values (__update_trigger_fields_session_state self s).2 = values s.
Proof.
  unfold __update_trigger_fields_session_state, controlled_widgets_setitem.
  by destruct (__controlled_widgets__ s).
Qed.

(** The constructor never raises, and its effect on the three parts of the
    session is as follows. *)
Lemma init_run k d fields func s :
  ∃ s',
    __init__ k d fields func s
    = (Ret {| key := k; default_value := d; trigger_fields := fields;
              trigger_func := func |}, s')
    ∧ values s'
      = (if decide (is_Some (values s !! k)) then values s
         else <[k := d]> (values s))
    ∧ __default_values__ s'
      = Some (<[k := d]> (default ∅ (__default_values__ s)))
    ∧ __controlled_widgets__ s'
      = Some (let r := default ∅ (__controlled_widgets__ s) in
              match r !! k with
              | Some _ => r
              | None =>
                  <[k := tracked_trigger_fields
                           (fields_or_empty
                              {| key := k; default_value := d;
                                 trigger_fields := fields;
                                 trigger_func := func |}) s']> r
              end).
Proof.
  destruct s as [v dv cw].
  unfold __init__, bind, when, has_default_values, new_default_values,
    ss_contains, ss_setitem, default_values_setitem, has_controlled_widgets,
    new_controlled_widgets, controlled_widgets,
    __update_trigger_fields_session_state, controlled_widgets_setitem, ret.
  destruct dv as [dv|], cw as [cw|]; simpl;
    destruct (decide (is_Some (v !! k))) as [Hk|Hk];
    rewrite ?(bool_decide_eq_true_2 _ Hk), ?(bool_decide_eq_false_2 _ Hk);
    simpl.
  all: try (destruct (cw !! k) as [snap|] eqn:Hs; simpl).
  all: rewrite ?lookup_empty; simpl.
  all: eexists; split; [reflexivity|]; simpl.
  all: rewrite ?decide_True by done; rewrite ?decide_False by done.
  all: rewrite ?Hs, ?lookup_empty; simpl.
  all: repeat split; try done.
Qed.


(** ** [has_triggered] *)

Lemma fields_or_empty_Some self fs :
  trigger_fields self = Some fs → fields_or_empty self = fs.
Proof. unfold fields_or_empty. intros ->. by destruct fs. Qed.

Lemma tracked_Some s k snap :
  tracked s k = Some snap
  ↔ ∃ r, __controlled_widgets__ s = Some r ∧ r !! k = Some snap.
Proof.
  unfold tracked. destruct (__controlled_widgets__ s) as [r|]; simpl.
  - split; [eauto | by intros (? & [= <-] & ?)].
  - split; [done | by intros (? & ? & ?)].
Qed.

Lemma trigger_field_values_run self s snap :
  tracked s (key self) = Some snap →
  trigger_field_values self s = (Ret snap, s).
Proof.
  intros (r & Hr & Hk)%tracked_Some.
  unfold trigger_field_values, bind, controlled_widgets.
  by rewrite Hr, Hk.
Qed.

Lemma has_triggered_fields_run self fs s snap :
  trigger_func self = None →
  trigger_fields self = Some fs →
  tracked s (key self) = Some snap →
  has_triggered self s = (Ret (any_changed s (map_to_list snap)), s).
Proof.
  intros Hfunc Hfields Hsnap. unfold has_triggered, bind.
  by rewrite Hfunc, Hfields, (trigger_field_values_run _ _ _ Hsnap).
Qed.


(** C3: when [trigger_func] is set, [has_triggered] is the call of
    [trigger_func] and nothing else: it returns what the function returns
    (and raises what it raises), whatever [trigger_fields], the session
    values of the trigger fields and the snapshot are. *)
Theorem C3_trigger_func_decides self func s :
  trigger_func self = Some func →
  has_triggered self s = func s.
Proof. intros Hfunc. unfold has_triggered. by rewrite Hfunc. Qed.

Lemma C3_witness :
  has_triggered another_widget
    (set_values <["field1"%string := VStr "reset"]> first_execution)
  = field1_is_reset
      (set_values <["field1"%string := VStr "reset"]> first_execution).
Proof. apply C3_trigger_func_decides. reflexivity. Defined.

(** C7: with [trigger_func] and [trigger_fields] both unset,
    [has_triggered] returns [True] in every session, and leaves the session
    as it is. *)
Theorem C7_untriggered_widget_always_triggers self s :
  trigger_func self = None →
  trigger_fields self = None →
  has_triggered self s = (Ret true, s).
Proof.
  intros Hfunc Hfields. unfold has_triggered. by rewrite Hfunc, Hfields.
Qed.

Lemma C7_witness :
  has_triggered field1 first_execution = (Ret true, first_execution).
Proof.
  apply C7_untriggered_widget_always_triggers; reflexivity.
Defined.

(** C9, as the code has it: [trigger_field_values] returns the stored
    snapshot when the registry has an entry for the key.  When there is no
    entry it raises, and the session stays as it is: [KeyError] when the
    registry is there and lacks the key, [AttributeError] when the session
    has no registry at all.  Nothing in the class catches the error:
    [has_triggered], when it consults the snapshot, and [__enter__] raise
    it in turn. *)
Theorem C9_trigger_field_values self s :
  (∀ snap, tracked s (key self) = Some snap →
     trigger_field_values self s = (Ret snap, s))
  ∧ (tracked s (key self) = None →
       ∃ e,
         e = match __controlled_widgets__ s with
             | Some _ => KeyError (key self)
             | None => AttributeError "__controlled_widgets__"
             end
         ∧ trigger_field_values self s = (Raise e, s)
         ∧ (trigger_func self = None → is_Some (trigger_fields self) →
              has_triggered self s = (Raise e, s)
              ∧ __enter__ self s = (Raise e, s))).
Proof.
  split.
  - apply trigger_field_values_run.
  - intros Hnone. eexists. split; [reflexivity|].
    assert (trigger_field_values self s
            = (Raise match __controlled_widgets__ s with
                     | Some _ => KeyError (key self)
                     | None => AttributeError "__controlled_widgets__"
                     end, s)) as Htfv.
    { unfold tracked in Hnone.
      unfold trigger_field_values, bind, controlled_widgets, raise.
      destruct (__controlled_widgets__ s) as [r|]; simpl in *; [|done].
      by rewrite Hnone. }
    split; [done|]. intros Hfunc [fs Hfields].
    assert (has_triggered self s
            = (Raise match __controlled_widgets__ s with
                     | Some _ => KeyError (key self)
                     | None => AttributeError "__controlled_widgets__"
                     end, s)) as Hht.
    { unfold has_triggered, bind. by rewrite Hfunc, Hfields, Htfv. }
    split; [done|]. unfold __enter__, bind. by rewrite Hht.
Qed.

Lemma C9_witness :
  trigger_field_values my_text_input first_execution
  = (Ret {[ "field1"%string := VStr ""; "field2"%string := VStr "" ]},
     first_execution)
  ∧ has_triggered my_text_input only_field1
    = (Raise (KeyError "my_text_input"), only_field1)
  ∧ __enter__ my_text_input fresh_session
    = (Raise (AttributeError "__controlled_widgets__"), fresh_session).
Proof.
  split; [|split].
  - apply (proj1 (C9_trigger_field_values my_text_input first_execution)).
    vm_compute. reflexivity.
  - destruct (proj2 (C9_trigger_field_values my_text_input only_field1))
      as (e & -> & _ & Hcallers).
    + vm_compute. reflexivity.
    + apply Hcallers; [reflexivity | present_by_computation].
  - destruct (proj2 (C9_trigger_field_values my_text_input fresh_session))
      as (e & -> & _ & Hcallers).
    + reflexivity.
    + apply Hcallers; [reflexivity | present_by_computation].
Defined.

(** C9, as the specification words it, fails in a session without the
    registry, such as one cleared after the widget was constructed: the
    registry has no entry for the key, and what is raised is the mapping's
    [AttributeError], not a [KeyError]. *)
Lemma C9_counterexample :
  tracked fresh_session (key my_text_input) = None
  ∧ trigger_field_values my_text_input fresh_session
    = (Raise (AttributeError "__controlled_widgets__"), fresh_session)
  ∧ ∀ k, trigger_field_values my_text_input fresh_session
         ≠ (Raise (KeyError k), fresh_session).
Proof.
  split; [reflexivity|]. split; [reflexivity|]. intros k. vm_compute.
  discriminate.
Qed.

(** C1, as the code has it: with [trigger_func] unset, [trigger_fields] set
    (an empty list included) and a snapshot in the registry,
    [has_triggered] returns a boolean and leaves the session alone; the
    boolean is [True] exactly when some field recorded in the snapshot has a
    current value, read with [get] and so [None] when the field is absent,
    that is [!=] to the recorded value.  When the snapshot was captured from
    the instance's own list in a session [s0], these are the fields of the
    list whose value now is [!=] to their value in [s0], an absent field
    counting as [None] on both sides. *)
Theorem C1_has_triggered_by_fields self fs s snap :
  trigger_func self = None →
  trigger_fields self = Some fs →
  tracked s (key self) = Some snap →
  ∃ b, has_triggered self s = (Ret b, s)
    ∧ (b = true
       ↔ ∃ f v, snap !! f = Some v ∧ py_ne (session_get s f) v = true)
    ∧ (∀ s0, snap = tracked_trigger_fields (fields_or_empty self) s0 →
         b = true
         ↔ ∃ f, f ∈ fs
              ∧ py_ne (session_get s f) (session_get s0 f) = true).
Proof.
  intros Hfunc Hfields Hsnap.
  exists (any_changed s (map_to_list snap)). split; [|split].
  - by apply (has_triggered_fields_run self fs).
  - apply any_changed_snapshot.
  - intros s0 ->. rewrite any_changed_snapshot.
    rewrite (fields_or_empty_Some _ _ Hfields). split.
    + intros (f & v & Hf & Hne). exists f.
      rewrite tracked_trigger_fields_lookup in Hf.
      case_decide; [|done]. by injection Hf as <-.
    + intros (f & Hin & Hne). exists f, (session_get s0 f).
      rewrite tracked_trigger_fields_lookup. by rewrite decide_True.
Qed.

Lemma C1_witness :
  ∃ b, has_triggered my_text_input
         (set_values <["field1"%string := VStr "x"]> first_execution)
       = (Ret b, set_values <["field1"%string := VStr "x"]> first_execution)
    ∧ b = true.
Proof.
  destruct (C1_has_triggered_by_fields my_text_input
              ["field1"; "field2"]%string
              (set_values <["field1"%string := VStr "x"]> first_execution)
              {[ "field1"%string := VStr ""; "field2"%string := VStr "" ]})
    as (b & Hrun & Hb & _).
  - reflexivity.
  - reflexivity.
  - vm_compute. reflexivity.
  - exists b. split; [exact Hrun|].
    apply Hb. exists "field1"%string, (VStr ""). split; vm_compute; reflexivity.
Defined.

(** C1, as the specification words it, fails on a field whose value is
    [None]: [choice] held [None] when the snapshot was taken and has been
    deleted since, so it is present in the snapshot and absent from the
    session, which is specified to count as a difference; the code reads the
    absent field as [None] and reports no trigger. *)
Lemma C1_counterexample :
  trigger_func details = None
  ∧ trigger_fields details = Some ["choice"]%string
  ∧ tracked choice_deleted "details" = Some {[ "choice"%string := VNone ]}
  ∧ values choice_deleted !! "choice"%string = None
  ∧ has_triggered_as_specified details choice_deleted
      {[ "choice"%string := VNone ]} = true
  ∧ has_triggered details choice_deleted = (Ret false, choice_deleted).
Proof. vm_compute. repeat split; reflexivity. Qed.

Lemma any_changed_agree s s' items :
  (∀ f v, (f, v) ∈ items → session_get s f = session_get s' f) →
  any_changed s items = any_changed s' items.
Proof.
  induction items as [|[g w] items IH]; intros Hagree; simpl; [done|].
  rewrite (Hagree g w) by (apply elem_of_cons; by left).
  rewrite IH; [done|]. intros f v Hin. apply (Hagree f v).
  apply elem_of_cons. by right.
Qed.

(** C10: with [trigger_func] unset and [trigger_fields] set, the fields
    [has_triggered] compares are the keys of the stored snapshot.  The list
    of the instance plays no part: any other list gives the same result; a
    field the snapshot does not record can take any value without changing
    the result, also when the list names it; a recorded field whose value
    differs triggers, also when the list does not name it; and when no
    recorded field differs the result is [False], whatever the fields of
    the list hold. *)
Theorem C10_compares_snapshot_keys self fs s snap :
  trigger_func self = None →
  trigger_fields self = Some fs →
  tracked s (key self) = Some snap →
  (∀ fs', has_triggered
            {| key := key self; default_value := default_value self;
               trigger_fields := Some fs'; trigger_func := None |} s
          = has_triggered self s)
  ∧ (∀ f v, snap !! f = None →
       (has_triggered self (set_values <[f := v]> s)).1
       = (has_triggered self s).1)
  ∧ (∀ f v, snap !! f = Some v → py_ne (session_get s f) v = true →
       has_triggered self s = (Ret true, s))
  ∧ ((∀ f v, snap !! f = Some v → py_ne (session_get s f) v = false) →
       has_triggered self s = (Ret false, s)).
Proof.
  intros Hfunc Hfields Hsnap.
  rewrite (has_triggered_fields_run self fs s snap) by done.
  split; [|split; [|split]]; [| | |
    intros Hsame; f_equal; f_equal; apply not_true_is_false;
    intros (f & v & Hf & Hne)%any_changed_snapshot;
    rewrite (Hsame f v Hf) in Hne; discriminate Hne].
  - intros fs'. by apply (has_triggered_fields_run _ fs').
  - intros f v Hf.
    rewrite (has_triggered_fields_run self fs _ snap) by done. simpl.
    f_equal. apply any_changed_agree. intros g w Hin%elem_of_map_to_list.
    unfold session_get, set_values. simpl.
    rewrite lookup_insert_ne; [done | congruence].
  - intros f v Hf Hne. f_equal. f_equal.
    apply any_changed_snapshot. eauto.
Qed.

Lemma C10_witness :
  has_triggered (my_text_input_on ["field2"; "field3"]%string)
    (set_values <["field1"%string := VStr "x"]> first_execution)
  = (Ret true, set_values <["field1"%string := VStr "x"]> first_execution)
  ∧ has_triggered (my_text_input_on ["field2"; "field3"]%string)
      (set_values <["field3"%string := VStr "x"]> first_execution)
    = (Ret false, set_values <["field3"%string := VStr "x"]> first_execution).
Proof.
  split.
  - refine (proj1 (proj2 (proj2 (C10_compares_snapshot_keys
              (my_text_input_on ["field2"; "field3"]%string)
              ["field2"; "field3"]%string
              (set_values <["field1"%string := VStr "x"]> first_execution)
              {[ "field1"%string := VStr ""; "field2"%string := VStr "" ]}
              _ _ _))) "field1"%string (VStr "") _ _).
    + reflexivity.
    + reflexivity.
    + vm_compute. reflexivity.
    + vm_compute. reflexivity.
    + vm_compute. reflexivity.
  - refine (proj2 (proj2 (proj2 (C10_compares_snapshot_keys
              (my_text_input_on ["field2"; "field3"]%string)
              ["field2"; "field3"]%string
              (set_values <["field3"%string := VStr "x"]> first_execution)
              {[ "field1"%string := VStr ""; "field2"%string := VStr "" ]}
              _ _ _))) _).
    + reflexivity.
    + reflexivity.
    + vm_compute. reflexivity.
    + intros f v Hf.
      apply lookup_insert_Some in Hf as [[<- <-]|[_ Hf]];
        [vm_compute; reflexivity|].
      apply lookup_singleton_Some in Hf as [<- <-]. vm_compute. reflexivity.
Defined.

(** ** Construction *)

Lemma tracked_lookup s k :
  tracked s k = default ∅ (__controlled_widgets__ s) !! k.
Proof.
  unfold tracked. destruct (__controlled_widgets__ s); simpl; [done|].
  by rewrite lookup_empty.
Qed.

Lemma capture_records self s s' :
  values s' = values s →
  snapshot_records (tracked_trigger_fields (fields_or_empty self) s)
                   (trigger_fields self) s'.
Proof.
  intros Hv. split.
  - intros fs f Hfs Hin. rewrite (fields_or_empty_Some _ _ Hfs).
    rewrite tracked_trigger_fields_lookup, decide_True by done.
    unfold session_get. by rewrite Hv.
  - intros f Hnot. rewrite tracked_trigger_fields_lookup.
    destruct (trigger_fields self) as [fs|] eqn:Hfs.
    + rewrite (fields_or_empty_Some _ _ Hfs).
      rewrite decide_False; [done | by apply Hnot].
    + unfold fields_or_empty. rewrite Hfs.
      rewrite decide_False; [done | by intros ?%elem_of_nil].
Qed.

(** C4, as the code has it, for a widget on user keys: the constructor
    returns the instance; a key absent from the session mapping gets
    [default_value]; a key without an entry in the registry gets a
    snapshot that holds every trigger field with the value it has once the
    constructor is done ([None] for a field the session lacks) and nothing
    else; a key with an entry keeps it, whatever the trigger fields hold
    now. *)
Theorem C4_construction k d fields func s :
  user_widget {| key := k; default_value := d; trigger_fields := fields;
                 trigger_func := func |} →
  ∃ s',
    __init__ k d fields func s
    = (Ret {| key := k; default_value := d; trigger_fields := fields;
              trigger_func := func |}, s')
    ∧ (values s !! k = None → values s' !! k = Some d)
    ∧ (tracked s k = None →
         ∃ snap, tracked s' k = Some snap ∧ snapshot_records snap fields s')
    ∧ (∀ snap, tracked s k = Some snap → tracked s' k = Some snap).
Proof.
  intros _. destruct (init_run k d fields func s) as (s' & Hrun & Hv & _ & Hcw).
  exists s'. split; [done|]. split; [|split].
  - intros Hk. rewrite Hv, decide_False by (rewrite Hk; by intros [? ?]).
    by rewrite lookup_insert_eq.
  - rewrite !tracked_lookup, Hcw. simpl. intros ->.
    eexists. split; [by rewrite lookup_insert_eq|].
    by apply (capture_records
                {| key := k; default_value := d; trigger_fields := fields;
                   trigger_func := func |}).
  - intros snap. rewrite !tracked_lookup, Hcw. simpl.
    intros Hsnap. by rewrite Hsnap.
Qed.

Lemma C4_witness :
  ∃ s' snap,
    __init__ "my_text_input" (VStr "initial value")
      (Some ["field1"; "field3"]%string) None field1_typed
    = (Ret (my_text_input_on ["field1"; "field3"]%string), s')
    ∧ values s' !! "my_text_input"%string = Some (VStr "initial value")
    ∧ tracked s' "my_text_input" = Some snap
    ∧ snap !! "field1"%string = Some (VStr "hello")
    ∧ snap !! "field3"%string = Some VNone
    ∧ snap !! "field2"%string = None.
Proof.
  destruct (C4_construction "my_text_input" (VStr "initial value")
              (Some ["field1"; "field3"]%string) None field1_typed)
    as (s' & Hrun & Hvalue & Hseed & _).
  - split; [reflexivity|]. repeat constructor.
  - destruct Hseed as (snap & Hsnap & Hin & Hout); [reflexivity|].
    exists s', snap. split; [exact Hrun|].
    split; [apply Hvalue; reflexivity|]. split; [exact Hsnap|].
    apply (f_equal snd) in Hrun. cbn [snd] in Hrun. subst s'.
    split; [|split].
    + rewrite (Hin _ "field1"%string eq_refl)
        by (apply elem_of_cons; by left).
      vm_compute. reflexivity.
    + rewrite (Hin _ "field3"%string eq_refl)
        by (apply elem_of_cons; right; apply elem_of_cons; by left).
      vm_compute. reflexivity.
    + apply Hout. intros fs [= <-] Hin'.
      apply elem_of_cons in Hin' as [Heq|Hin']; [discriminate Heq|].
      apply elem_of_cons in Hin' as [Heq|Hin']; [discriminate Heq|].
      by apply elem_of_nil in Hin'.
Defined.

(** C4, as the specification words it, fails when the key is absent from
    the session mapping and present in the registry: the value is set to the
    default, and the snapshot stays what it was although [field1] has
    changed. *)
Lemma C4_counterexample :
  values value_dropped !! "my_text_input"%string = None
  ∧ ∃ s',
      __init__ "my_text_input" (VStr "initial value")
        (Some ["field1"; "field2"]%string) None value_dropped
      = (Ret my_text_input, s')
      ∧ values s' !! "my_text_input"%string = Some (VStr "initial value")
      ∧ tracked s' "my_text_input"
        = Some {[ "field1"%string := VStr ""; "field2"%string := VStr "" ]}
      ∧ tracked_trigger_fields ["field1"; "field2"]%string s'
        = {[ "field1"%string := VStr "hello"; "field2"%string := VStr "" ]}
      ∧ tracked s' "my_text_input"
        ≠ Some (tracked_trigger_fields ["field1"; "field2"]%string s').
Proof.
  split; [vm_compute; reflexivity|].
  eexists. split; [vm_compute; reflexivity|].
  repeat split; try (vm_compute; reflexivity).
  intros Hsame.
  apply (f_equal (λ o, o ≫= (.!! "field1"%string))) in Hsame.
  vm_compute in Hsame. discriminate Hsame.
Qed.

(** ** [reset] *)

Lemma reset_run self s r :
  __controlled_widgets__ s = Some r →
  reset self s
  = (Ret tt,
     set_controlled_widgets
       (Some (<[key self :=
                  tracked_trigger_fields (fields_or_empty self)
                    (set_values <[key self := default_value self]> s)]> r))
       (set_values <[key self := default_value self]> s)).
Proof.
  intros Hr. unfold reset, bind, ss_setitem.
  by rewrite (update_run _ _ r).
Qed.

Lemma reset_values self s :
  values (reset self s).2 = <[key self := default_value self]> (values s).
Proof.
  unfold reset, bind, ss_setitem.
  destruct (__update_trigger_fields_session_state self
              (set_values <[key self := default_value self]> s))
    as [[[]|e] s'] eqn:Hu.
  all: apply (f_equal (λ p, values p.2)) in Hu; simpl in Hu.
  all: by rewrite update_values in Hu.
Qed.

(** C6: for a widget on user keys and a session that has the registry, as
    every session has once a widget was constructed in it, [reset] writes
    [default_value] under the key whatever the session holds, the other
    user keys staying as they are, and then stores as the snapshot of the
    key every trigger field with the value it has in the session with that
    write done ([None] for a field the session lacks), and nothing else. *)
Theorem C6_reset self s :
  user_widget self →
  is_Some (__controlled_widgets__ s) →
  ∃ s' snap,
    reset self s = (Ret tt, s')
    ∧ values s' = <[key self := default_value self]> (values s)
    ∧ values s' !! key self = Some (default_value self)
    ∧ tracked s' (key self) = Some snap
    ∧ snapshot_records snap (trigger_fields self) s'.
Proof.
  intros _ [r Hr]. eexists _, _. split; [by apply reset_run|].
  split; [done|]. split; [simpl; by rewrite lookup_insert_eq|].
  split; [unfold tracked; simpl; by rewrite lookup_insert_eq|].
  by apply capture_records.
Qed.

Lemma C6_witness :
  ∃ s' snap,
    reset my_text_input edited = (Ret tt, s')
    ∧ values s' !! "my_text_input"%string = Some (VStr "initial value")
    ∧ tracked s' "my_text_input" = Some snap
    ∧ snap !! "field1"%string = Some (VStr "hello")
    ∧ snap !! "field2"%string = Some (VStr "")
    ∧ snap !! "my_text_input"%string = None.
Proof.
  destruct (C6_reset my_text_input edited)
    as (s' & snap & Hrun & _ & Hvalue & Hsnap & Hin & Hout).
  - split; [reflexivity|]. repeat constructor.
  - present_by_computation.
  - exists s', snap. split; [exact Hrun|]. split; [exact Hvalue|].
    split; [exact Hsnap|].
    apply (f_equal snd) in Hrun. cbn [snd] in Hrun. subst s'.
    split; [|split].
    + rewrite (Hin _ "field1"%string eq_refl)
        by (apply elem_of_cons; by left).
      vm_compute. reflexivity.
    + rewrite (Hin _ "field2"%string eq_refl)
        by (apply elem_of_cons; right; apply elem_of_cons; by left).
      vm_compute. reflexivity.
    + apply Hout. intros fs [= <-] Hin'.
      apply elem_of_cons in Hin' as [Heq|Hin']; [discriminate Heq|].
      apply elem_of_cons in Hin' as [Heq|Hin']; [discriminate Heq|].
      by apply elem_of_nil in Hin'.
Defined.

(** ** Scoped acquisition *)

Lemma trigger_field_values_state self s :
  (trigger_field_values self s).2 = s.
Proof.
  unfold trigger_field_values, bind, controlled_widgets, ret, raise.
  destruct (__controlled_widgets__ s) as [r|]; [|done].
  by destruct (r !! key self).
Qed.

Lemma has_triggered_state self s :
  trigger_func self = None → (has_triggered self s).2 = s.
Proof.
  intros Hfunc. unfold has_triggered, bind. rewrite Hfunc.
  destruct (trigger_fields self); [|done].
  pose proof (trigger_field_values_state self s) as Hs.
  destruct (trigger_field_values self s) as [[snap|e] s']; by simpl in *.
Qed.

Lemma enter_run self s b s1 :
  has_triggered self s = (Ret b, s1) →
  __enter__ self s
  = (Ret self,
     if b then set_values <[key self := default_value self]> s1 else s1).
Proof.
  intros Hht. unfold __enter__, bind. rewrite Hht. by destruct b.
Qed.

Lemma enter_raises self s e s1 :
  has_triggered self s = (Raise e, s1) → __enter__ self s = (Raise e, s1).
Proof. intros Hht. unfold __enter__, bind. by rewrite Hht. Qed.

Lemma exit_run self s r :
  __controlled_widgets__ s = Some r →
  __exit__ self s
  = (Ret tt,
     set_controlled_widgets
       (Some (<[key self := tracked_trigger_fields (fields_or_empty self) s]> r))
       s).
Proof. apply update_run. Qed.

(** C2: for a widget on user keys, when [has_triggered] returns [True],
    [__enter__] writes [default_value] under the key and touches neither
    registry, so the snapshot is the one [has_triggered] compared against.
    [__exit__], in a session that has the registry, stores as the snapshot
    of the key every trigger field with the value it has when [__exit__]
    runs ([None] for a field the session lacks) and nothing else, and
    changes no user key.
    In a [with] block [__exit__] runs on the session the body leaves behind,
    whether the body returned or raised, and the outcome of the block is the
    outcome of the body. *)
Theorem C2_scoped_acquisition self :
  user_widget self →
  (∀ s s1, has_triggered self s = (Ret true, s1) →
     __enter__ self s
     = (Ret self, set_values <[key self := default_value self]> s1)
     ∧ __controlled_widgets__ (__enter__ self s).2 = __controlled_widgets__ s1
     ∧ (trigger_func self = None →
          tracked (__enter__ self s).2 (key self) = tracked s (key self)))
  ∧ (∀ s, is_Some (__controlled_widgets__ s) →
       ∃ s' snap, __exit__ self s = (Ret tt, s')
         ∧ values s' = values s
         ∧ tracked s' (key self) = Some snap
         ∧ snapshot_records snap (trigger_fields self) s)
  ∧ (∀ A (body : ControlledWidget → M A) s ctrl s1 r s2,
       __enter__ self s = (Ret ctrl, s1) →
       body ctrl s1 = (r, s2) →
       is_Some (__controlled_widgets__ s2) →
       ∃ s3 snap, with_ self body s = (r, s3)
         ∧ values s3 = values s2
         ∧ tracked s3 (key self) = Some snap
         ∧ snapshot_records snap (trigger_fields self) s2).
Proof.
  intros _.
  assert (∀ s, is_Some (__controlled_widgets__ s) →
            ∃ s' snap, __exit__ self s = (Ret tt, s')
              ∧ values s' = values s
              ∧ tracked s' (key self) = Some snap
              ∧ snapshot_records snap (trigger_fields self) s)
    as Hexit.
  { intros s [r Hr]. eexists _, _. split; [by apply exit_run|].
    split; [done|].
    split; [unfold tracked; simpl; by rewrite lookup_insert_eq|].
    by apply capture_records. }
  split; [|split; [exact Hexit|]].
  - intros s s1 Hht. rewrite (enter_run _ _ _ _ Hht).
    split; [done|]. split; [done|].
    intros Hfunc. pose proof (has_triggered_state self s Hfunc) as Hs.
    rewrite Hht in Hs. simpl in Hs. by subst s1.
  - intros A body s ctrl s1 r s2 Henter Hbody Hreg.
    destruct (Hexit s2 Hreg) as (s3 & snap & Hrun & Hv & Hsnap).
    exists s3, snap. split; [|done].
    unfold with_. by rewrite Henter, Hbody, Hrun.
Qed.

Lemma C2_witness :
  ∃ s3 snap, with_ my_text_input failing_body edited
             = (Raise (Exception "render failed"), s3)
    ∧ values s3 !! "my_text_input"%string = Some (VStr "typed")
    ∧ tracked s3 "my_text_input" = Some snap
    ∧ snap !! "field1"%string = Some (VStr "hello")
    ∧ snap !! "field2"%string = Some (VStr "")
    ∧ snap !! "my_text_input"%string = None.
Proof.
  assert (user_widget my_text_input) as Huser.
  { split; [reflexivity|]. repeat constructor. }
  destruct (proj2 (proj2 (C2_scoped_acquisition my_text_input Huser))
              unit failing_body edited my_text_input
              (__enter__ my_text_input edited).2
              (Raise (Exception "render failed"))
              (failing_body my_text_input
                 (__enter__ my_text_input edited).2).2)
    as (s3 & snap & Hrun & Hv & Hsnap & Hin & Hout).
  - vm_compute. reflexivity.
  - vm_compute. reflexivity.
  - present_by_computation.
  - exists s3, snap. split; [exact Hrun|]. split.
    { rewrite Hv. vm_compute. reflexivity. }
    split; [exact Hsnap|]. split; [|split].
    + rewrite (Hin _ "field1"%string eq_refl)
        by (apply elem_of_cons; by left).
      vm_compute. reflexivity.
    + rewrite (Hin _ "field2"%string eq_refl)
        by (apply elem_of_cons; right; apply elem_of_cons; by left).
      vm_compute. reflexivity.
    + apply Hout. intros fs [= <-] Hin'.
      apply elem_of_cons in Hin' as [Heq|Hin']; [discriminate Heq|].
      apply elem_of_cons in Hin' as [Heq|Hin']; [discriminate Heq|].
      by apply elem_of_nil in Hin'.
Defined.

(** ** The controlled value: who writes it, and that it stays present *)

Lemma init_values k d fields func s :
  values (__init__ k d fields func s).2
  = if decide (is_Some (values s !! k)) then values s
    else <[k := d]> (values s).
Proof.
  destruct (init_run k d fields func s) as (s' & Hrun & Hv & _).
  by rewrite Hrun.
Qed.

Lemma invoke_construct d fields func self s :
  invoke (Construct d fields func) self s
  = ({| key := key self; default_value := d; trigger_fields := fields;
        trigger_func := func |},
     (__init__ (key self) d fields func s).2).
Proof.
  destruct (init_run (key self) d fields func s) as (s' & Hrun & _).
  simpl. by rewrite Hrun.
Qed.

Lemma invoke_values_unchanged m self s :
  leaves_value_alone m self s → values (invoke m self s).2 = values s.
Proof.
  destruct m as [d fields func|fields|func| | | | | |]; simpl.
  - intros Hk. fold (invoke (Construct d fields func) self s).
    rewrite invoke_construct. simpl. rewrite init_values.
    by rewrite decide_True.
  - intros _. apply update_values.
  - done.
  - intros _. by rewrite trigger_field_values_state.
  - done.
  - done.
  - intros Hfunc. by rewrite has_triggered_state.
  - intros [Hfunc Hnot].
    pose proof (has_triggered_state self s Hfunc) as Hs.
    destruct (has_triggered self s) as [[b|e] s1] eqn:Hht; simpl in *; subst s1.
    + rewrite (enter_run _ _ _ _ Hht). by destruct b.
    + by rewrite (enter_raises _ _ _ _ Hht).
  - intros _. apply update_values.
Qed.

(** C5, as the code has it, for a widget on a user key: two calls write
    the controlled value, [reset] and [__enter__] when [has_triggered]
    returns [True], and both write [default_value].  Every other call
    leaves the value at the key as it is: construction with the key
    present, [set_trigger_fields],
    [set_trigger_func], [has_triggered] with [trigger_func] unset,
    [trigger_field_values], [value], [__enter__] with [trigger_func] unset
    when [has_triggered] does not return [True], and [__exit__]. *)
Theorem C5_writers_of_the_value self s :
  user_key (key self) →
  (∀ m, leaves_value_alone m self s →
     values (invoke m self s).2 !! key self = values s !! key self)
  ∧ values (invoke Reset self s).2 !! key self = Some (default_value self)
  ∧ (∀ s1, has_triggered self s = (Ret true, s1) →
       values (invoke Enter self s).2 !! key self
       = Some (default_value self)).
Proof.
  intros _. split; [|split].
  - intros m Hm. by rewrite invoke_values_unchanged.
  - simpl. rewrite reset_values. by rewrite lookup_insert_eq.
  - intros s1 Hht. simpl. rewrite (enter_run _ _ _ _ Hht). simpl.
    by rewrite lookup_insert_eq.
Qed.

Lemma C5_witness :
  values (invoke Exit my_text_input edited).2 !! "my_text_input"%string
  = Some (VStr "typed")
  ∧ values (invoke Enter my_text_input edited).2 !! "my_text_input"%string
    = Some (VStr "initial value").
Proof.
  assert (user_key (key my_text_input)) as Huser by reflexivity.
  destruct (C5_writers_of_the_value my_text_input edited Huser)
    as (Hframe & _ & Henter).
  split.
  - etransitivity; [exact (Hframe Exit I)|]. vm_compute. reflexivity.
  - apply (Henter edited). vm_compute. reflexivity.
Defined.

(** C5, as the specification words it, fails at scoped entry: [__enter__]
    is not [reset], and with a trigger field edited it replaces what the
    user typed by the default. *)
Lemma C5_counterexample :
  other_than_reset_as_specified Enter my_text_input edited
  ∧ values edited !! "my_text_input"%string = Some (VStr "typed")
  ∧ values (invoke Enter my_text_input edited).2 !! "my_text_input"%string
    = Some (VStr "initial value")
  ∧ values (invoke Enter my_text_input edited).2 !! key my_text_input
    ≠ values edited !! key my_text_input.
Proof.
  split; [exact I|]. vm_compute. repeat split; try reflexivity. discriminate.
Qed.

Lemma has_triggered_keeps k self s :
  (∀ f, trigger_func self = Some f → keeps_key k f) →
  is_Some (values s !! k) →
  is_Some (values (has_triggered self s).2 !! k).
Proof.
  intros Hkeeps Hk. destruct (trigger_func self) as [f|] eqn:Hfunc.
  - unfold has_triggered; rewrite Hfunc. by apply Hkeeps.
  - by rewrite has_triggered_state.
Qed.

Lemma insert_keeps (m : gmap string value) j v k :
  is_Some (m !! k) → is_Some (<[j := v]> m !! k).
Proof.
  intros Hk. destruct (decide (j = k)) as [->|Hne].
  - rewrite lookup_insert_eq. eauto.
  - by rewrite lookup_insert_ne.
Qed.

(** One call keeps the invariant: the key of the instance, the presence of
    its value, and the good behaviour of its callback. *)
Lemma invoke_keeps k m self s :
  key self = k →
  is_Some (values s !! k) →
  (∀ f, trigger_func self = Some f → keeps_key k f) →
  installs_keeping k m →
  key (invoke m self s).1 = k
  ∧ is_Some (values (invoke m self s).2 !! k)
  ∧ (∀ f, trigger_func (invoke m self s).1 = Some f → keeps_key k f).
Proof.
  intros Hkey Hk Hkeeps Hm.
  destruct m as [d fields func|fields|func| | | | | |].
  - rewrite invoke_construct. simpl. rewrite init_values.
    split; [done|]. split.
    + case_decide; [done | by apply insert_keeps].
    + intros f ->. exact Hm.
  - simpl. rewrite update_values. done.
  - simpl. split; [done|]. split; [done|]. by intros f [= <-].
  - simpl. by rewrite trigger_field_values_state.
  - done.
  - simpl. rewrite reset_values. split; [done|].
    split; [by apply insert_keeps | done].
  - simpl. split; [done|]. split; [by apply has_triggered_keeps | done].
  - simpl. split; [done|]. split; [|done].
    pose proof (has_triggered_keeps k self s Hkeeps Hk) as Hk1.
    destruct (has_triggered self s) as [[b|e] s1] eqn:Hht; simpl in Hk1.
    + rewrite (enter_run _ _ _ _ Hht). simpl.
      destruct b; [by apply insert_keeps | done].
    + by rewrite (enter_raises _ _ _ _ Hht).
  - simpl. unfold __exit__. by rewrite update_values.
Qed.

Lemma invoke_all_keeps k ms self s :
  key self = k →
  is_Some (values s !! k) →
  (∀ f, trigger_func self = Some f → keeps_key k f) →
  Forall (installs_keeping k) ms →
  is_Some (values (invoke_all ms self s).2 !! k).
Proof.
  intros Hkey Hk Hkeeps Hms. revert self s Hkey Hk Hkeeps.
  induction Hms as [|m ms Hm Hms IH]; intros self s Hkey Hk Hkeeps; [done|].
  simpl.
  destruct (invoke_keeps k m self s Hkey Hk Hkeeps Hm) as (Hkey' & Hk' & Hkeeps').
  destruct (invoke m self s) as [self' s']. by apply IH.
Qed.

(** C8: for a user key, the constructor returns with a value under the
    key, [default_value] if there was none, and after any sequence of calls
    on the instance (construction for the same key included) a value is
    still there.  The callbacks given as [trigger_func] are user code that
    [has_triggered] runs; they are taken not to delete the key. *)
Theorem C8_value_stays_present k d fields func s ms :
  user_key k →
  (∀ f, func = Some f → keeps_key k f) →
  Forall (installs_keeping k) ms →
  ∃ s0,
    __init__ k d fields func s
    = (Ret {| key := k; default_value := d; trigger_fields := fields;
              trigger_func := func |}, s0)
    ∧ is_Some (values s0 !! k)
    ∧ (values s !! k = None → values s0 !! k = Some d)
    ∧ is_Some (values (invoke_all ms
                         {| key := k; default_value := d;
                            trigger_fields := fields;
                            trigger_func := func |} s0).2 !! k).
Proof.
  intros _ Hfunc Hms.
  destruct (init_run k d fields func s) as (s0 & Hrun & Hv & _).
  assert (is_Some (values s0 !! k)) as Hk.
  { rewrite Hv. case_decide; [done|]. rewrite lookup_insert_eq. eauto. }
  exists s0. split; [done|]. split; [done|]. split.
  - intros Hnone. rewrite Hv, decide_False by (rewrite Hnone; by intros [? ?]).
    by rewrite lookup_insert_eq.
  - by apply invoke_all_keeps.
Qed.

Lemma field1_is_reset_keeps k : keeps_key k field1_is_reset.
Proof.
  intros s Hk. unfold field1_is_reset.
  by destruct (values s !! "field1"%string).
Qed.

Lemma C8_witness :
  ∃ s0,
    __init__ "my_text_input" (VStr "initial value")
      (Some ["field1"; "field2"]%string) None fresh_session
    = (Ret my_text_input, s0)
    ∧ values s0 !! "my_text_input"%string = Some (VStr "initial value")
    ∧ is_Some (values (invoke_all
                         [Enter; SetTriggerFunc field1_is_reset; HasTriggered;
                          Exit; Reset; SetTriggerFields ["field2"%string]]
                         my_text_input s0).2 !! "my_text_input"%string).
Proof.
  destruct (C8_value_stays_present "my_text_input" (VStr "initial value")
              (Some ["field1"; "field2"]%string) None fresh_session
              [Enter; SetTriggerFunc field1_is_reset; HasTriggered;
               Exit; Reset; SetTriggerFields ["field2"%string]])
    as (s0 & Hrun & _ & Hdefault & Hstays).
  - reflexivity.
  - intros f Hf. discriminate Hf.
  - repeat constructor. simpl. apply field1_is_reset_keeps.
  - exists s0. split; [exact Hrun|]. split; [|exact Hstays].
    apply Hdefault. reflexivity.
Defined.


(** * Further properties of the class *)

(** ** Construction and the registry of defaults *)

Lemma default_of_lookup s k :
  default_of s k = default ∅ (__default_values__ s) !! k.
Proof.
  unfold default_of. destruct (__default_values__ s); simpl; [done|].
  by rewrite lookup_empty.
Qed.

Lemma session_eq (s s' : session_state) :
  values s = values s' →
  __default_values__ s = __default_values__ s' →
  __controlled_widgets__ s = __controlled_widgets__ s' →
  s = s'.
Proof. destruct s, s'; simpl. by intros -> -> ->. Qed.

(** The constructor records [default_value] under the key in
    [__default_values__] on every call, replacing what an earlier
    construction recorded, and keeps the defaults recorded for the other
    keys. *)
Theorem init_records_default k d fields func s :
  default_of (__init__ k d fields func s).2 k = Some d
  ∧ ∀ j, j ≠ k →
      default_of (__init__ k d fields func s).2 j = default_of s j.
Proof.
  destruct (init_run k d fields func s) as (s' & Hrun & _ & Hdv & _).
  rewrite Hrun. simpl. split.
  - by rewrite default_of_lookup, Hdv; simpl; rewrite lookup_insert_eq.
  - intros j Hj. rewrite !default_of_lookup, Hdv. simpl.
    by rewrite lookup_insert_ne.
Qed.

(** On a later page execution, when the key has a value and a snapshot,
    the constructor changes nothing in the session but the default recorded
    for the key: the value, the snapshot and every other entry stay, also
    when the new instance names other trigger fields. *)
Theorem init_again_only_records_default k d fields func s :
  is_Some (values s !! k) →
  is_Some (tracked s k) →
  (__init__ k d fields func s).2
  = set_default_values (Some (<[k := d]> (default ∅ (__default_values__ s))))
      s.
Proof.
  intros Hk [snap Hsnap].
  destruct (init_run k d fields func s) as (s' & Hrun & Hv & Hdv & Hcw).
  rewrite Hrun. simpl. apply session_eq; simpl.
  - rewrite Hv. by rewrite decide_True.
  - done.
  - rewrite Hcw. simpl.
    apply tracked_Some in Hsnap as (r & Hr & Hrk). rewrite Hr. simpl.
    by rewrite Hrk.
Qed.

Lemma init_again_witness :
  (__init__ "my_text_input" (VStr "other default")
     (Some ["field3"%string]) None edited).2
  = set_default_values
      (Some (<["my_text_input"%string := VStr "other default"]>
               (default ∅ (__default_values__ edited))))
      edited.
Proof.
  apply init_again_only_records_default; present_by_computation.
Defined.

(** Constructing twice is constructing once: a second call of the
    constructor with the same key and default, whatever its trigger fields
    and callback, leaves the session the first call produced. *)
Theorem init_idempotent k d fields func fields' func' s :
  (__init__ k d fields' func' (__init__ k d fields func s).2).2
  = (__init__ k d fields func s).2.
Proof.
  destruct (init_run k d fields func s) as (s1 & Hrun1 & Hv1 & Hdv1 & Hcw1).
  destruct (init_run k d fields' func' s1) as (s2 & Hrun2 & Hv2 & Hdv2 & Hcw2).
  rewrite Hrun1. simpl. rewrite Hrun2. simpl.
  assert (is_Some (values s1 !! k)) as Hk.
  { rewrite Hv1. destruct (decide (is_Some (values s !! k))); [done|].
    rewrite lookup_insert_eq. eauto. }
  apply session_eq.
  - rewrite Hv2. by rewrite decide_True.
  - rewrite Hdv2, Hdv1. simpl. by rewrite insert_insert_eq.
  - rewrite Hcw2, Hcw1. simpl.
    destruct (default ∅ (__controlled_widgets__ s) !! k) as [snap|] eqn:Hs.
    + by rewrite Hs.
    + by rewrite lookup_insert_eq.
Qed.

(** ** Capturing a snapshot *)

(** The snapshot has exactly the trigger fields as keys, each with the
    value the session has for it ([None] when it has none), and depends on
    the list only through the set of its members: neither the order of the
    fields nor a repeated field matters. *)
Theorem snapshot_depends_on_field_set fields fields' s :
  dom (tracked_trigger_fields fields s) = list_to_set fields
  ∧ (∀ f, f ∈ fields →
       tracked_trigger_fields fields s !! f
       = Some (default VNone (values s !! f)))
  ∧ ((∀ f, f ∈ fields ↔ f ∈ fields') →
       tracked_trigger_fields fields s = tracked_trigger_fields fields' s).
Proof.
  split; [|split].
  - apply set_eq. intros f. rewrite elem_of_dom, elem_of_list_to_set.
    rewrite tracked_trigger_fields_lookup.
    destruct (decide (f ∈ fields)) as [Hin|Hnin]; split; intros H.
    + done.
    + eauto.
    + by destruct H.
    + done.
  - intros f Hin. rewrite tracked_trigger_fields_lookup.
    by rewrite decide_True.
  - intros Hsame. apply map_eq. intros f.
    rewrite !tracked_trigger_fields_lookup.
    destruct (decide (f ∈ fields)) as [Hin|Hnin].
    + rewrite decide_True; [done | by apply Hsame].
    + rewrite decide_False; [done | by rewrite <- Hsame].
Qed.

Lemma snapshot_depends_on_field_set_witness :
  tracked_trigger_fields ["field1"; "field2"; "field1"]%string first_execution
  = tracked_trigger_fields ["field2"; "field1"]%string first_execution.
Proof.
  apply (proj2 (proj2 (snapshot_depends_on_field_set
           ["field1"; "field2"; "field1"]%string
           ["field2"; "field1"]%string first_execution))).
  intros f. rewrite !elem_of_cons, !elem_of_nil. tauto.
Defined.

(** ** When a widget is, and is not, triggered *)















(** ** A session without the registry *)



(** ** Methods that only read *)

Lemma has_triggered_quiet self s :
  (∀ f, trigger_func self = Some f → quiet f) →
  (has_triggered self s).2 = s.
Proof.
  intros Hquiet. destruct (trigger_func self) as [f|] eqn:Hfunc.
  - unfold has_triggered. rewrite Hfunc. by apply Hquiet.
  - by apply has_triggered_state.
Qed.

(** [value], [trigger_field_values], [set_trigger_func] and, when the
    callback only reads, [has_triggered] leave the whole session as it is,
    whether they return or raise; and [__enter__] leaves it as it is when
    [has_triggered] does not return [True]. *)
Theorem readers_leave_the_session self s :
  (∀ f, trigger_func self = Some f → quiet f) →
  (∀ m, m = Value ∨ m = TriggerFieldValues ∨ m = HasTriggered
        ∨ (∃ func, m = SetTriggerFunc func) →
        (invoke m self s).2 = s)
  ∧ ((has_triggered self s).1 ≠ Ret true → (__enter__ self s).2 = s).
Proof.
  intros Hquiet. split.
  - intros m [->|[->|[->|[func ->]]]]; simpl.
    + done.
    + apply trigger_field_values_state.
    + by apply has_triggered_quiet.
    + done.
  - intros Hnot. pose proof (has_triggered_quiet self s Hquiet) as Hs.
    destruct (has_triggered self s) as [[b|e] s1] eqn:Hht; simpl in *; subst.
    + rewrite (enter_run _ _ _ _ Hht). by destruct b.
    + by rewrite (enter_raises _ _ _ _ Hht).
Qed.

Lemma field1_is_reset_quiet : quiet field1_is_reset.
Proof.
  intros s. unfold field1_is_reset. by destruct (values s !! "field1"%string).
Qed.

Lemma readers_leave_the_session_witness :
  (__enter__ another_widget first_execution).2 = first_execution.
Proof.
  refine (proj2 (readers_leave_the_session another_widget first_execution _)
            _).
  - intros f [= <-]. apply field1_is_reset_quiet.
  - vm_compute. discriminate.
Defined.

(** ** Widgets do not interfere *)










(** ** The snapshot, once stored, stays available *)





(** ** The page of [streamlit_app.py] *)

(** The last block of the page never completes, in any session.  When
    [field1] is absent the callback of [another_controlled_widget] raises
    [KeyError] inside [__enter__]; otherwise the body raises
    [AttributeError] on [w.widget_key], after [__enter__] has put the
    default back if [field1] holds ['reset'], and [__exit__] still stores
    the (empty) snapshot of the widget. *)
Theorem page_last_block_always_raises s :
  (another_widget_block s).1
  = Raise (match values s !! "field1"%string with
           | Some _ => AttributeError "widget_key"
           | None => KeyError "field1"
           end)
  ∧ (∀ v, values s !! "field1"%string = Some v →
       tracked (another_widget_block s).2 "another_widget" = Some ∅
       ∧ (py_eq v (VStr "reset") = true →
            values (another_widget_block s).2 !! "another_widget"%string
            = Some (VStr "another initial value"))).
Proof.
  destruct (init_run "another_widget" (VStr "another initial value") None
              (Some field1_is_reset) s) as (s' & Hrun & Hv & _ & Hcw).
  assert (values s' !! "field1"%string = values s !! "field1"%string) as Hf1.
  { rewrite Hv. destruct (decide _); [done|]. by rewrite lookup_insert_ne. }
  assert (∃ r, __controlled_widgets__ s' = Some r) as [r Hr]
    by (rewrite Hcw; eauto).
  clear Hcw Hv.
  unfold another_widget_block, bind. rewrite Hrun. unfold with_.
  destruct (values s !! "field1"%string) as [v|] eqn:Hfield.
  - assert (has_triggered another_widget s'
            = (Ret (py_eq v (VStr "reset")), s')) as Hht.
    { unfold has_triggered. simpl. unfold field1_is_reset. by rewrite Hf1. }
    fold another_widget. rewrite (enter_run _ _ _ _ Hht).
    unfold another_widget_body, bind, value_, ss_get, raise.
    destruct (py_eq v (VStr "reset")) eqn:Hreset.
    + rewrite (exit_run _ _ r) by done. simpl.
      split; [done|]. intros w [= <-]. split.
      * unfold tracked. simpl. by rewrite lookup_insert_eq.
      * intros _. by rewrite lookup_insert_eq.
    + rewrite (exit_run _ _ r) by done. simpl.
      split; [done|]. intros w [= <-]. split; [|intros Hyes; congruence].
      unfold tracked. simpl. by rewrite lookup_insert_eq.
  - assert (has_triggered another_widget s'
            = (Raise (KeyError "field1"), s')) as Hht.
    { unfold has_triggered. simpl. unfold field1_is_reset. by rewrite Hf1. }
    fold another_widget. rewrite (enter_raises _ _ _ _ Hht). simpl.
    split; [done|]. by intros v.
Qed.
